(** * SurrealQL backend for pySigma: a shallow embedding

    The embedded source is [sigma/backends/surrealql/surrealql.py]: the class
    [SurrealQLBackend], its class-level configuration constants and its two
    methods [finalize_query_default] and [escape_and_quote_field].

    Python [str] values are [string]s (one [ascii] per character), [int]s
    are [Z], dictionaries are association lists in insertion order. A method
    call hands back how it ended (a value or a raised exception) together
    with the mutable objects it was passed, as they are when it ends.
    [Runtime] embeds the same methods over run-time values and a store of
    objects, where a call can raise and can write. *)

From Stdlib Require Import String Ascii List ZArith.
From Stdlib Require Import Lia DecimalString.
Import ListNotations.

Local Open Scope string_scope.

(** ** Python built-ins used by the source *)

Module Py.

(** [str.replace(old, new)] with the default count: every non-overlapping
    occurrence of [old], scanning from the left, is replaced by [new].
    [skip] counts the characters of a matched occurrence still to be
    stepped over, which keeps the scan structural. *)
Fixpoint replace_from (old new : string) (skip : nat) (s : string) : string :=
  match s with
  | EmptyString => EmptyString
  | String c s' =>
      match skip with
      | S k => replace_from old new k s'
      | O =>
          if prefix old s
          then new ++ replace_from old new (String.length old - 1) s'
          else String c (replace_from old new 0 s')
      end
  end.

(** An empty [old] matches before every character and at the end. *)
Fixpoint replace_empty (new : string) (s : string) : string :=
  match s with
  | EmptyString => new
  | String c s' => new ++ String c (replace_empty new s')
  end.

Definition replace (s old new : string) : string :=
  match old with
  | EmptyString => replace_empty new s
  | String _ _ => replace_from old new 0 s
  end.

(** [c in s] for a one-character needle. *)
Fixpoint contains_char (c : ascii) (s : string) : bool :=
  match s with
  | EmptyString => false
  | String d s' => if Ascii.eqb d c then true else contains_char c s'
  end.

(** The pieces of an f-string: literal text, and replacement fields holding
    a [str], which are formatted as themselves. *)
Inductive fpart : Type :=
  | Lit (text : string)
  | Fld (value : string).

Definition fpart_str (p : fpart) : string :=
  match p with
  | Lit text => text
  | Fld value => value
  end.

Fixpoint fstring (parts : list fpart) : string :=
  match parts with
  | [] => EmptyString
  | p :: ps => fpart_str p ++ fstring ps
  end.

(** [d.get(k)] on a dictionary kept as an association list. *)
Fixpoint dict_get {K V : Type} (eqb : K -> K -> bool)
    (d : list (K * V)) (k : K) : option V :=
  match d with
  | [] => None
  | (k', v) :: d' => if eqb k' k then Some v else dict_get eqb d' k
  end.

(** [t.index(x)] on a three-element tuple; [None] stands for [ValueError]. *)
Definition tuple3_index {A : Type} (eqb : A -> A -> bool)
    (t : A * A * A) (x : A) : option nat :=
  let '(a, b, c) := t in
  if eqb a x then Some 0%nat
  else if eqb b x then Some 1%nat
  else if eqb c x then Some 2%nat
  else None.

(** The one-character string written ["\\"] in Python source. *)
Definition backslash : string := String (ascii_of_nat 92) EmptyString.

(** [s.count(c)] for a one-character needle. *)
Fixpoint count_char (c : ascii) (s : string) : nat :=
  match s with
  | EmptyString => 0
  | String d s' =>
      if Ascii.eqb d c then S (count_char c s') else count_char c s'
  end.

(** The configuration's templates are format strings for [str.format].
    How [str.format] called with keyword arguments only, each a [str],
    ends on a template:
    with the formatted text, with [KeyError] for a placeholder that has no
    argument, or with the [ValueError] for a brace without its partner.
    [NotModelled] marks format strings outside the part embedded here:
    positional fields ([{}], [{0}]), attribute and index access,
    conversions and format specifications. *)
Inductive formatted : Type :=
  | Formatted (text : string)
  | KeyError (key : string)
  | BraceError
  | NotModelled.

(** Text written before the rest of the template is formatted. *)
Definition emit (text : string) (rest : formatted) : formatted :=
  match rest with
  | Formatted t => Formatted (text ++ t)
  | _ => rest
  end.

Definition is_digit (c : ascii) : bool :=
  (Nat.leb 48 (nat_of_ascii c) && Nat.leb (nat_of_ascii c) 57)%bool.

(** An empty or all-digit field name is a positional field. *)
Fixpoint positional (field_name : string) : bool :=
  match field_name with
  | EmptyString => true
  | String c s' => (is_digit c && positional s')%bool
  end.

(** Characters that start a nested field, an attribute, an index, a
    conversion or a format specification inside a replacement field. *)
Definition field_syntax (c : ascii) : bool :=
  (Ascii.eqb c "{" || Ascii.eqb c "." || Ascii.eqb c "[" || Ascii.eqb c "!"
   || Ascii.eqb c ":")%bool%char.

(** The scan of [str.format]. Outside a replacement field ([field = None])
    text is copied, a doubled brace stands for one brace, an opening brace
    starts a field and a lone closing brace is an error. Inside a field
    ([field = Some name], [name] being what was read of it) the closing
    brace looks the name up in [kwargs]; the argument is written as it is
    and is not scanned again. *)
Fixpoint format_from (kwargs : list (string * string)) (field : option string)
    (s : string) : formatted :=
  match s with
  | EmptyString =>
      match field with
      | None => Formatted EmptyString
      | Some _ => BraceError
      end
  | String c s' =>
      match field with
      | Some name =>
          if Ascii.eqb c "}" then
            if positional name then NotModelled
            else
              match dict_get String.eqb kwargs name with
              | Some v => emit v (format_from kwargs None s')
              | None => KeyError name
              end
          else if field_syntax c then NotModelled
          else format_from kwargs (Some (name ++ String c EmptyString)) s'
      | None =>
          if Ascii.eqb c "{" then
            match s' with
            | EmptyString => BraceError
            | String d s'' =>
                if Ascii.eqb d "{"
                then emit "{" (format_from kwargs None s'')
                else format_from kwargs (Some EmptyString) s'
            end
          else if Ascii.eqb c "}" then
            match s' with
            | EmptyString => BraceError
            | String d s'' =>
                if Ascii.eqb d "}"
                then emit "}" (format_from kwargs None s'')
                else BraceError
            end
          else emit (String c EmptyString) (format_from kwargs None s')
      end
  end.

Definition format (template : string) (kwargs : list (string * string))
    : formatted :=
  format_from kwargs None template.

End Py.

(** ** External pySigma types the configuration refers to *)

(** [sigma.conditions]: the three boolean connectives. *)
Inductive ConditionItem : Type :=
  | ConditionAND
  | ConditionOR
  | ConditionNOT.

Definition ConditionItem_eqb (a b : ConditionItem) : bool :=
  match a, b with
  | ConditionAND, ConditionAND => true
  | ConditionOR, ConditionOR => true
  | ConditionNOT, ConditionNOT => true
  | _, _ => false
  end.

(** [sigma.types.SigmaCompareExpression.CompareOperators]. *)
Inductive CompareOperators : Type :=
  | LT
  | LTE
  | GT
  | GTE.

Definition CompareOperators_eqb (a b : CompareOperators) : bool :=
  match a, b with
  | LT, LT => true
  | LTE, LTE => true
  | GT, GT => true
  | GTE, GTE => true
  | _, _ => false
  end.

(** A compiled regular expression, kept as its source pattern. *)
Record Pattern : Type := re_compile { pattern : string }.

(** ** The class-level configuration of a text query backend

    One field per class attribute assigned in the body of
    [SurrealQLBackend], in source order. *)
Record Backend : Type := {
  name : string;
  formats : list (string * string);
  precedence : ConditionItem * ConditionItem * ConditionItem;
  parenthesize : bool;
  group_expression : string;
  token_separator : string;
  or_token : string;
  and_token : string;
  not_token : string;
  eq_token : string;
  field_quote : string;
  field_quote_pattern : Pattern;
  field_quote_pattern_negation : bool;
  str_quote : string;
  escape_char : string;
  add_escaped : string;
  bool_values : list (bool * string);
  startswith_expression : string;
  endswith_expression : string;
  contains_expression : string;
  wildcard_match_expression : string;
  wildcard_match_str_expression : string;
  re_expression : string;
  re_escape_char : string;
  re_escape : list string;
  re_escape_escape_char : bool;
  re_flag_prefix : bool;
  cidr_expression : option string;
  compare_op_expression : string;
  compare_operators : list (CompareOperators * string);
  field_equals_field_expression : option string;
  field_equals_field_escaping_quoting : bool * bool;
  field_null_expression : string;
  field_exists_expression : string;
  field_not_exists_expression : string;
  convert_or_as_in : bool;
  convert_and_as_in : bool;
  in_expressions_allow_wildcards : bool;
  field_in_list_expression : string;
  or_in_operator : string;
  and_in_operator : string;
  list_separator : string;
  deferred_start : string;
  deferred_separator : string;
  deferred_only_query : string;
  table : string
}.

(** The class body of [SurrealQLBackend]. *)
Definition SurrealQLBackend : Backend := {|
  name := "SurrealQL backend";
  formats := [("default", "Plain SurrealQL queries")];
  precedence := (ConditionNOT, ConditionAND, ConditionOR);
  parenthesize := true;
  group_expression := "({expr})";
  token_separator := " ";
  or_token := "OR";
  and_token := "AND";
  not_token := "NOT";
  eq_token := "=";
  field_quote := "'";
  field_quote_pattern := re_compile "^[a-zA-Z0-9_]*$";
  field_quote_pattern_negation := true;
  str_quote := "'";
  escape_char := Py.backslash;
  add_escaped := Py.backslash;
  bool_values := [(true, "TRUE"); (false, "FALSE")];
  startswith_expression := "string::starts_with({field},{value})";
  endswith_expression := "string::ends_with({field},{value})";
  contains_expression := "string::contains({field},{value})";
  wildcard_match_expression := "string::matches({field},{value})";
  wildcard_match_str_expression := "{field}=/{value}/";
  re_expression := "{field}=/{regex}/";
  re_escape_char := EmptyString;
  re_escape := [];
  re_escape_escape_char := true;
  re_flag_prefix := true;
  cidr_expression := None;
  compare_op_expression := "{field} {operator} {value}";
  compare_operators := [(LT, "<"); (LTE, "<="); (GT, ">"); (GTE, ">=")];
  field_equals_field_expression := None;
  field_equals_field_escaping_quoting := (true, true);
  field_null_expression := "{field} IS NULL";
  field_exists_expression := "{field} IS NOT NONE";
  field_not_exists_expression := "{field} IS NONE";
  convert_or_as_in := false;
  convert_and_as_in := false;
  in_expressions_allow_wildcards := false;
  field_in_list_expression := "{field} {op} [{list}]";
  or_in_operator := "IN";
  and_in_operator := "CONTAINSALL";
  list_separator := ", ";
  deferred_start := EmptyString;
  deferred_separator := EmptyString;
  deferred_only_query := EmptyString;
  table := "<TABLE_NAME>"
|}.

(** ** Method calls *)

(** Exceptions a Python call can end in. *)
Inductive exn : Type :=
  | AttributeError
  | TypeError
  | ValueError.

Inductive outcome (A : Type) : Type :=
  | Returned (value : A)
  | Raised (e : exn).

Arguments Returned {A} value.
Arguments Raised {A} e.

(** A finished call: its outcome, and the contents of the objects it received
    by reference once it has ended. [str] and [int] arguments are immutable
    and are not part of [after]. *)
Record Call (A Objs : Type) : Type := mkCall {
  result : outcome A;
  after : Objs
}.

Arguments mkCall {A Objs} result after.
Arguments result {A Objs} _.
Arguments after {A Objs} _.

Section Methods.

(** [sigma.rule.SigmaRule] and [sigma.conversion.state.ConversionState]
    belong to the framework; the backend is modelled for any contents of
    these objects. *)
Variables SigmaRule ConversionState : Type.

(** The objects [finalize_query_default] receives. [self] carries no
    instance attribute that shadows a class attribute (none is assigned in
    this repository), so [self.table] reads the class configuration. *)
Record Objects : Type := mkObjects {
  self_obj : Backend;
  rule_obj : SigmaRule;
  state_obj : ConversionState
}.

Definition finalize_query_default (self : Backend) (rule : SigmaRule)
    (query : string) (index : Z) (state : ConversionState)
    : Call string Objects :=
  let sqlite_query :=
    Py.fstring [Py.Lit "SELECT * FROM "; Py.Fld (table self);
                Py.Lit " WHERE "; Py.Fld query; Py.Lit ";"] in
  mkCall (Returned sqlite_query) (mkObjects self rule state).

Definition escape_and_quote_field (self : Backend) (field_name : string)
    : Call string Backend :=
  mkCall (Returned (Py.replace field_name " " "_")) self.

End Methods.

Arguments mkObjects {SigmaRule ConversionState} _ _ _.
Arguments self_obj {SigmaRule ConversionState} _.
Arguments rule_obj {SigmaRule ConversionState} _.
Arguments state_obj {SigmaRule ConversionState} _.
Arguments finalize_query_default {SigmaRule ConversionState}
  self rule query index state.

(** The character [field_name.replace(" ", "_")] leaves where the input
    has [c]: the description the properties below compare the scan with. *)
Definition underscored (c : ascii) : ascii :=
  if Ascii.eqb c " "%char then "_"%char else c.

(** ** The two methods at run time

    The same two methods one level down, where a call can fail and can
    write. Arguments are run-time values, objects live in a store and are
    passed by reference, and a body is a computation over the store built
    from the operations Python performs for it: attribute reads, the
    formatting of an f-string field, a method call on a value. *)

Module Runtime.

Inductive value : Type :=
  | VNone
  | VBool (b : bool)
  | VInt (z : Z)
  | VStr (s : string)
  | VRef (l : nat).

(** How a run ends. [Beyond] stands for a run that leaves the part of
    Python embedded here; nothing is stated about such a run. *)
Inductive ended (A : Type) : Type :=
  | Done (a : A)
  | Threw (e : exn)
  | Beyond.

Arguments Done {A} a.
Arguments Threw {A} e.
Arguments Beyond {A}.

(** The class of an object of the store: [SurrealQLBackend] itself, or
    another class (a framework class such as [SigmaRule] or
    [ConversionState], or a subclass), whose class attributes are not part
    of the model. *)
Inductive class_of_object : Type :=
  | OfSurrealQLBackend
  | OfOtherClass.

(** An object: its class and its instance dictionary. *)
Record object : Type := mkObject {
  class_of : class_of_object;
  fields : list (string * value)
}.

(** The store: the attributes of the class [SurrealQLBackend] and the
    objects alive during a call. *)
Record Store : Type := mkStore {
  backend_class : Backend;
  heap : list (nat * object)
}.

Definition Run (A : Type) : Type := Store -> ended A * Store.

Definition ret {A : Type} (a : A) : Run A :=
  fun st => (Done a, st).

Definition bind {A B : Type} (m : Run A) (k : A -> Run B) : Run B :=
  fun st =>
    match m st with
    | (Done a, st') => k a st'
    | (Threw e, st') => (Threw e, st')
    | (Beyond, st') => (Beyond, st')
    end.

Definition throw {A : Type} (e : exn) : Run A :=
  fun st => (Threw e, st).

Definition beyond {A : Type} : Run A :=
  fun st => (Beyond, st).

Local Notation "x <- m ;; k" := (bind m (fun x => k))
  (at level 61, m at next level, right associativity).

(** What a name of the class body is bound to: a value of the model, or
    something structured (a tuple, a dictionary, a compiled pattern, a
    function). *)
Inductive class_entry : Type :=
  | Data (v : value)
  | Structured.

Definition optional_str (o : option string) : value :=
  match o with
  | Some s => VStr s
  | None => VNone
  end.

(** The namespace of the class body, name by name in source order. *)
Definition class_namespace (b : Backend) : list (string * class_entry) :=
  [ ("name", Data (VStr (name b)));
    ("formats", Structured);
    ("precedence", Structured);
    ("parenthesize", Data (VBool (parenthesize b)));
    ("group_expression", Data (VStr (group_expression b)));
    ("token_separator", Data (VStr (token_separator b)));
    ("or_token", Data (VStr (or_token b)));
    ("and_token", Data (VStr (and_token b)));
    ("not_token", Data (VStr (not_token b)));
    ("eq_token", Data (VStr (eq_token b)));
    ("field_quote", Data (VStr (field_quote b)));
    ("field_quote_pattern", Structured);
    ("field_quote_pattern_negation",
       Data (VBool (field_quote_pattern_negation b)));
    ("str_quote", Data (VStr (str_quote b)));
    ("escape_char", Data (VStr (escape_char b)));
    ("add_escaped", Data (VStr (add_escaped b)));
    ("bool_values", Structured);
    ("startswith_expression", Data (VStr (startswith_expression b)));
    ("endswith_expression", Data (VStr (endswith_expression b)));
    ("contains_expression", Data (VStr (contains_expression b)));
    ("wildcard_match_expression", Data (VStr (wildcard_match_expression b)));
    ("wildcard_match_str_expression",
       Data (VStr (wildcard_match_str_expression b)));
    ("re_expression", Data (VStr (re_expression b)));
    ("re_escape_char", Data (VStr (re_escape_char b)));
    ("re_escape", Structured);
    ("re_escape_escape_char", Data (VBool (re_escape_escape_char b)));
    ("re_flag_prefix", Data (VBool (re_flag_prefix b)));
    ("cidr_expression", Data (optional_str (cidr_expression b)));
    ("compare_op_expression", Data (VStr (compare_op_expression b)));
    ("compare_operators", Structured);
    ("field_equals_field_expression",
       Data (optional_str (field_equals_field_expression b)));
    ("field_equals_field_escaping_quoting", Structured);
    ("field_null_expression", Data (VStr (field_null_expression b)));
    ("field_exists_expression", Data (VStr (field_exists_expression b)));
    ("field_not_exists_expression",
       Data (VStr (field_not_exists_expression b)));
    ("convert_or_as_in", Data (VBool (convert_or_as_in b)));
    ("convert_and_as_in", Data (VBool (convert_and_as_in b)));
    ("in_expressions_allow_wildcards",
       Data (VBool (in_expressions_allow_wildcards b)));
    ("field_in_list_expression", Data (VStr (field_in_list_expression b)));
    ("or_in_operator", Data (VStr (or_in_operator b)));
    ("and_in_operator", Data (VStr (and_in_operator b)));
    ("list_separator", Data (VStr (list_separator b)));
    ("deferred_start", Data (VStr (deferred_start b)));
    ("deferred_separator", Data (VStr (deferred_separator b)));
    ("deferred_only_query", Data (VStr (deferred_only_query b)));
    ("table", Data (VStr (table b)));
    ("finalize_query_default", Structured);
    ("escape_and_quote_field", Structured) ].

Definition deref (l : nat) (st : Store) : option object :=
  Py.dict_get Nat.eqb (heap st) l.

(** [o.attr]: the instance dictionary first, then the class. A name that
    the class body of [SurrealQLBackend] does not bind would be looked up
    in the framework's base classes, and attributes of built-in values are
    not modelled: both are [Beyond]. *)
Definition getattr (o : value) (attr : string) : Run value :=
  fun st =>
    match o with
    | VRef l =>
        match deref l st with
        | Some obj =>
            match Py.dict_get String.eqb (fields obj) attr with
            | Some v => (Done v, st)
            | None =>
                match class_of obj with
                | OfSurrealQLBackend =>
                    match Py.dict_get String.eqb
                            (class_namespace (backend_class st)) attr with
                    | Some (Data v) => (Done v, st)
                    | Some Structured => (Beyond, st)
                    | None => (Beyond, st)
                    end
                | OfOtherClass => (Beyond, st)
                end
            end
        | None => (Beyond, st)
        end
    | _ => (Beyond, st)
    end.

Fixpoint dict_set (d : list (string * value)) (k : string) (v : value)
    : list (string * value) :=
  match d with
  | [] => [(k, v)]
  | (k', v') :: d' =>
      if String.eqb k' k then (k, v) :: d' else (k', v') :: dict_set d' k v
  end.

Fixpoint heap_set (h : list (nat * object)) (l : nat) (obj : object)
    : list (nat * object) :=
  match h with
  | [] => [(l, obj)]
  | (l', obj') :: h' =>
      if Nat.eqb l' l then (l, obj) :: h' else (l', obj') :: heap_set h' l obj
  end.

(** [o.attr = v]: the write on an object. The built-in values have no
    attribute that can be assigned. *)
Definition setattr (o : value) (attr : string) (v : value) : Run unit :=
  fun st =>
    match o with
    | VRef l =>
        match deref l st with
        | Some obj =>
            (Done tt,
             mkStore (backend_class st)
               (heap_set (heap st) l
                  (mkObject (class_of obj) (dict_set (fields obj) attr v))))
        | None => (Beyond, st)
        end
    | _ => (Threw AttributeError, st)
    end.

(** An assignment to an attribute of the class [SurrealQLBackend]. *)
Definition class_assign (update : Backend -> Backend) : Run unit :=
  fun st => (Done tt, mkStore (update (backend_class st)) (heap st)).

(** A replacement field of an f-string with no conversion and no format
    specification: [format(v, "")]. How an object of the store formats
    itself is up to its class. *)
Definition format_field (v : value) : Run string :=
  match v with
  | VStr s => ret s
  | VNone => ret "None"
  | VBool true => ret "True"
  | VBool false => ret "False"
  | VInt z => ret (DecimalString.NilZero.string_of_int (Z.to_int z))
  | VRef _ => beyond
  end.

(** [v.replace(old, new)] with two [str] arguments: [None], booleans and
    integers have no attribute [replace]. *)
Definition call_replace (v : value) (old new : string) : Run value :=
  match v with
  | VStr s => ret (VStr (Py.replace s old new))
  | VNone | VBool _ | VInt _ => throw AttributeError
  | VRef _ => beyond
  end.

Definition finalize_query_default (self rule query index state : value)
    : Run value :=
  tbl <- getattr self "table" ;;
  shown_table <- format_field tbl ;;
  shown_query <- format_field query ;;
  let sqlite_query :=
    "SELECT * FROM " ++ shown_table ++ " WHERE " ++ shown_query ++ ";" in
  ret (VStr sqlite_query).

Definition escape_and_quote_field (self field_name : value) : Run value :=
  call_replace field_name " " "_".

(** [self] is an instance of [SurrealQLBackend] that has no instance
    attribute [table]: this repository assigns none. *)
Definition backend_instance (st : Store) (self : value) : bool :=
  match self with
  | VRef l =>
      match deref l st with
      | Some (mkObject OfSurrealQLBackend own) =>
          match Py.dict_get String.eqb own "table" with
          | Some _ => false
          | None => true
          end
      | _ => false
      end
  | _ => false
  end.

(** A store for examples: a backend instance at 0, a rule at 1 and a
    conversion state at 2. *)
Definition sample_store : Store :=
  mkStore SurrealQLBackend
    [ (0%nat, mkObject OfSurrealQLBackend []);
      (1%nat, mkObject OfOtherClass
                [("title", VStr "Suspicious Shell"); ("level", VStr "high")]);
      (2%nat, mkObject OfOtherClass [("processing_state", VNone)]) ].

End Runtime.

(** * Properties *)

(** ** The built-ins and the methods on concrete inputs *)

Example replace_process_name :
  Py.replace "Process Name" " " "_" = "Process_Name".
Proof. reflexivity. Qed.

Example replace_non_overlapping :
  Py.replace "aaaa" "aa" "b" = "bb" /\ Py.replace "aaa" "aa" "b" = "ba".
Proof. split; reflexivity. Qed.

Example replace_longer_needle :
  Py.replace "a, b, c" ", " ";" = "a;b;c".
Proof. reflexivity. Qed.

Example replace_empty_old :
  Py.replace "abc" EmptyString "-" = "-a-b-c-"
  /\ Py.replace EmptyString EmptyString "-" = "-".
Proof. split; reflexivity. Qed.

Example finalize_run :
  finalize_query_default SurrealQLBackend tt
    "EventID=4688 AND Image='cmd.exe'" 0 tt
  = mkCall
      (Returned
         "SELECT * FROM <TABLE_NAME> WHERE EventID=4688 AND Image='cmd.exe';")
      (mkObjects SurrealQLBackend tt tt).
Proof. reflexivity. Qed.

Example escape_run :
  escape_and_quote_field SurrealQLBackend "Parent Process Name"
  = mkCall (Returned "Parent_Process_Name") SurrealQLBackend.
Proof. reflexivity. Qed.

(** ** Replacing a space by an underscore, character by character *)

Section ReplaceSpace.

Local Open Scope char_scope.

Lemma prefix_space (c : ascii) (s : string) :
  prefix " " (String c s) = Ascii.eqb c " ".
Proof.
  change (prefix " " (String c s))
    with (if ascii_dec " " c then prefix EmptyString s else false).
  destruct (ascii_dec " " c) as [e | n].
  - subst c. rewrite Ascii.eqb_refl. now destruct s.
  - symmetry. apply (proj2 (Ascii.eqb_neq c " ")). congruence.
Qed.

Lemma replace_space_step (c : ascii) (s : string) :
  Py.replace (String c s) " " "_"
  = String (underscored c) (Py.replace s " " "_").
Proof.
  unfold Py.replace, underscored.
  change (Py.replace_from " " "_" 0 (String c s))
    with (if prefix " " (String c s)
          then ("_" ++ Py.replace_from " " "_" 0 s)%string
          else String c (Py.replace_from " " "_" 0 s)).
  rewrite prefix_space. now destruct (Ascii.eqb c " ").
Qed.

Lemma replace_space_length (s : string) :
  String.length (Py.replace s " " "_") = String.length s.
Proof.
  induction s as [| c s IH]; [reflexivity |].
  rewrite replace_space_step. cbn [String.length]. now rewrite IH.
Qed.

Lemma replace_space_get (s : string) (i : nat) :
  String.get i (Py.replace s " " "_") = option_map underscored (String.get i s).
Proof.
  revert i. induction s as [| c s IH]; intros i.
  - now destruct i.
  - rewrite replace_space_step.
    destruct i as [| i]; cbn [String.get option_map]; [reflexivity |].
    apply IH.
Qed.

Lemma underscored_no_space (c : ascii) : Ascii.eqb (underscored c) " " = false.
Proof.
  unfold underscored. destruct (Ascii.eqb c " ") eqn:E; [reflexivity | exact E].
Qed.

Lemma underscored_id (c : ascii) : Ascii.eqb c " " = false -> underscored c = c.
Proof. unfold underscored. now intros ->. Qed.

Lemma replace_space_no_space (s : string) :
  Py.contains_char " " (Py.replace s " " "_") = false.
Proof.
  induction s as [| c s IH]; [reflexivity |].
  rewrite replace_space_step. cbn [Py.contains_char].
  now rewrite underscored_no_space.
Qed.

Lemma replace_space_fixed (s : string) :
  Py.contains_char " " s = false -> Py.replace s " " "_" = s.
Proof.
  induction s as [| c s IH]; [reflexivity |].
  cbn [Py.contains_char]. destruct (Ascii.eqb c " ") eqn:E; [discriminate |].
  intros H. rewrite replace_space_step, (underscored_id c E). now rewrite IH.
Qed.

End ReplaceSpace.

(** ** The two methods *)

Section Claims.

Context {SigmaRule ConversionState : Type}.

Implicit Types (self : Backend) (rule : SigmaRule) (state : ConversionState).
Implicit Types (query field_name : string) (index : Z).

(** The f-string of [finalize_query_default], read as a concatenation. *)
Lemma finalize_query_default_result self rule query index state :
  result (finalize_query_default self rule query index state)
  = Returned ("SELECT * FROM " ++ table self ++ " WHERE " ++ query ++ ";").
Proof. reflexivity. Qed.

(** C1. For every rendered condition [query], and any rule, index and
    conversion state, [finalize_query_default] of the class as defined
    returns exactly ["SELECT * FROM <TABLE_NAME> WHERE "], then [query]
    unmodified, then [";"]. *)
Theorem finalize_query_default_shape rule query index state :
  result (finalize_query_default SurrealQLBackend rule query index state)
  = Returned ("SELECT * FROM <TABLE_NAME> WHERE " ++ query ++ ";").
Proof. rewrite finalize_query_default_result. reflexivity. Qed.

(** C2. [escape_and_quote_field] returns a string of the same length as
    [field_name] whose character at every position is an underscore where
    [field_name] has a space and the character of [field_name] itself
    everywhere else. *)
Theorem escape_and_quote_field_pointwise self field_name :
  exists out : string,
    result (escape_and_quote_field self field_name) = Returned out
    /\ String.length out = String.length field_name
    /\ forall i : nat,
         String.get i out = option_map underscored (String.get i field_name).
Proof.
  exists (Py.replace field_name " " "_"). split; [reflexivity |].
  split; [apply replace_space_length |].
  intros i. apply replace_space_get.
Qed.

(** C3. On a field name that contains no space, [escape_and_quote_field]
    is the identity. *)
Theorem escape_and_quote_field_no_space_id self field_name :
  Py.contains_char " " field_name = false ->
  result (escape_and_quote_field self field_name) = Returned field_name.
Proof.
  intros H. unfold escape_and_quote_field. cbn [result].
  now rewrite (replace_space_fixed field_name H).
Qed.

(** C8. The value [finalize_query_default] returns is a function of [query]
    and the table name alone: two calls with the same [query] and the same
    table name return the same value, whatever the rules, indexes and
    conversion states are. *)
Theorem finalize_query_default_noninterference
    self1 self2 rule1 rule2 query index1 index2 state1 state2 :
  table self1 = table self2 ->
  result (finalize_query_default self1 rule1 query index1 state1)
  = result (finalize_query_default self2 rule2 query index2 state2).
Proof.
  intros H. rewrite !finalize_query_default_result. now rewrite H.
Qed.

(** C9. [escape_and_quote_field] is idempotent: called on its own result it
    returns that result again. *)
Theorem escape_and_quote_field_idempotent self (s : string) :
  exists out : string,
    result (escape_and_quote_field self s) = Returned out
    /\ result (escape_and_quote_field self out) = Returned out.
Proof.
  exists (Py.replace s " " "_"). split; [reflexivity |].
  unfold escape_and_quote_field. cbn [result]. f_equal.
  apply replace_space_fixed, replace_space_no_space.
Qed.

(** C10. The string [escape_and_quote_field] returns contains no space. *)
Theorem escape_and_quote_field_space_free self field_name :
  exists out : string,
    result (escape_and_quote_field self field_name) = Returned out
    /\ Py.contains_char " " out = false.
Proof.
  exists (Py.replace field_name " " "_"). split; [reflexivity |].
  apply replace_space_no_space.
Qed.

End Claims.

Lemma escape_and_quote_field_no_space_id_witness :
  Py.contains_char " " "CommandLine" = false
  /\ result (escape_and_quote_field SurrealQLBackend "CommandLine")
     = Returned "CommandLine".
Proof.
  split; [reflexivity |].
  apply (escape_and_quote_field_no_space_id SurrealQLBackend "CommandLine").
  reflexivity.
Defined.

Lemma finalize_query_default_noninterference_witness :
  table SurrealQLBackend = table SurrealQLBackend
  /\ result (finalize_query_default SurrealQLBackend 1%nat "a=1 OR b=2" 0 true)
     = result
         (finalize_query_default SurrealQLBackend 2%nat "a=1 OR b=2" 7 false).
Proof.
  split; [reflexivity |].
  apply (finalize_query_default_noninterference
           SurrealQLBackend SurrealQLBackend 1%nat 2%nat "a=1 OR b=2" 0 7
           true false).
  reflexivity.
Defined.

(** ** The configuration constants *)

(** C5. The precedence tuple handed to the framework is
    [(ConditionNOT, ConditionAND, ConditionOR)]: NOT at position 0, AND at
    position 1, OR at position 2. *)
Theorem precedence_not_and_or :
  precedence SurrealQLBackend = (ConditionNOT, ConditionAND, ConditionOR)
  /\ Py.tuple3_index ConditionItem_eqb (precedence SurrealQLBackend)
       ConditionNOT = Some 0%nat
  /\ Py.tuple3_index ConditionItem_eqb (precedence SurrealQLBackend)
       ConditionAND = Some 1%nat
  /\ Py.tuple3_index ConditionItem_eqb (precedence SurrealQLBackend)
       ConditionOR = Some 2%nat.
Proof. repeat split. Qed.

(** C7. The class maps LT to ["<"], LTE to ["<="], GT to [">"] and GTE to
    [">="], with the compare template ["{field} {operator} {value}"]; and a
    call of either method, on any configuration, leaves the operator table
    and the template as they were. *)
Theorem compare_operators_fixed :
  (Py.dict_get CompareOperators_eqb (compare_operators SurrealQLBackend) LT
     = Some "<"
   /\ Py.dict_get CompareOperators_eqb (compare_operators SurrealQLBackend) LTE
     = Some "<="
   /\ Py.dict_get CompareOperators_eqb (compare_operators SurrealQLBackend) GT
     = Some ">"
   /\ Py.dict_get CompareOperators_eqb (compare_operators SurrealQLBackend) GTE
     = Some ">=")
  /\ compare_op_expression SurrealQLBackend = "{field} {operator} {value}"
  /\ (forall (SigmaRule ConversionState : Type) (self : Backend)
        (rule : SigmaRule) (query : string) (index : Z)
        (state : ConversionState),
        let self' :=
          self_obj (after (finalize_query_default self rule query index state))
        in
        compare_operators self' = compare_operators self
        /\ compare_op_expression self' = compare_op_expression self)
  /\ (forall (self : Backend) (field_name : string),
        let self' := after (escape_and_quote_field self field_name) in
        compare_operators self' = compare_operators self
        /\ compare_op_expression self' = compare_op_expression self).
Proof.
  split; [repeat split |]. split; [reflexivity |].
  split; intros; split; reflexivity.
Qed.

(** * Further properties of the two methods *)

(** ** Concatenation and slicing of strings *)

Lemma append_inv_head (a x y : string) : a ++ x = a ++ y -> x = y.
Proof.
  induction a as [| c a IH]; cbn [append]; intros H; [exact H |].
  injection H as H. now apply IH.
Qed.

Lemma append_inv_last (c : ascii) (x y : string) :
  x ++ String c EmptyString = y ++ String c EmptyString -> x = y.
Proof.
  revert y. induction x as [| d x IH]; intros [| e y]; cbn [append]; intros H.
  - reflexivity.
  - injection H as _ H. now destruct y.
  - injection H as _ H. now destruct x.
  - injection H as -> H. f_equal. now apply IH.
Qed.

Lemma append_assoc (a b c : string) : (a ++ b) ++ c = a ++ b ++ c.
Proof.
  induction a as [| d a IH]; cbn [append]; [reflexivity | now rewrite IH].
Qed.

Lemma append_nil_r (a : string) : a ++ EmptyString = a.
Proof.
  induction a as [| d a IH]; cbn [append]; [reflexivity | now rewrite IH].
Qed.

Lemma Returned_inj {A : Type} (a b : A) : Returned a = Returned b -> a = b.
Proof. now intros [=]. Qed.

Lemma length_append (a b : string) :
  String.length (a ++ b) = String.length a + String.length b.
Proof.
  induction a as [| c a IH]; cbn [append String.length Nat.add];
    [reflexivity | now rewrite IH].
Qed.

Lemma substring_whole_prefix (q b : string) :
  substring 0 (String.length q) (q ++ b) = q.
Proof.
  induction q as [| c q IH]; cbn [append String.length substring].
  - now destruct b.
  - now rewrite IH.
Qed.

Lemma substring_skip (a s : string) (m : nat) :
  substring (String.length a) m (a ++ s) = substring 0 m s.
Proof.
  induction a as [| c a IH]; cbn [append String.length substring];
    [reflexivity | exact IH].
Qed.

Lemma replace_space_append (a b : string) :
  Py.replace (a ++ b) " " "_" = Py.replace a " " "_" ++ Py.replace b " " "_".
Proof.
  induction a as [| c a IH]; cbn [append]; [reflexivity |].
  rewrite !replace_space_step. cbn [append]. now rewrite IH.
Qed.

Lemma replace_space_changes (s : string) :
  Py.contains_char " " s = true -> Py.replace s " " "_" <> s.
Proof.
  intros H E. pose proof (replace_space_no_space s) as N.
  rewrite E, H in N. discriminate.
Qed.

Lemma replace_space_count (s : string) (c : ascii) :
  Py.count_char c (Py.replace s " " "_")
  = if Ascii.eqb c " " then 0
    else if Ascii.eqb c "_"
         then Py.count_char "_" s + Py.count_char " " s
         else Py.count_char c s.
Proof.
  induction s as [| d s IH].
  - cbn. now destruct (Ascii.eqb c " "), (Ascii.eqb c "_").
  - rewrite replace_space_step. cbn [Py.count_char]. rewrite IH.
    unfold underscored.
    destruct (Ascii.eqb_spec d " ") as [Ed | Nd]; [subst d |];
    repeat match goal with
           | |- context [Ascii.eqb ?a ?b] => destruct (Ascii.eqb_spec a b)
           end;
      subst; try congruence; lia.
Qed.

(** ** What a finalized statement tells about its condition *)

Section Finalization.

Context {SigmaRule ConversionState : Type}.

Implicit Types (self : Backend) (rule : SigmaRule) (state : ConversionState).
Implicit Types (query : string) (index : Z).

(** X1. [finalize_query_default] separates conditions: with the same table
    name, two calls that return the same statement were given the same
    [query]. *)
Theorem finalize_query_default_injective
    self1 self2 rule1 rule2 query1 query2 index1 index2 state1 state2 :
  table self1 = table self2 ->
  result (finalize_query_default self1 rule1 query1 index1 state1)
  = result (finalize_query_default self2 rule2 query2 index2 state2) ->
  query1 = query2.
Proof.
  intros Ht H. rewrite !finalize_query_default_result, Ht in H.
  apply Returned_inj in H.
  apply (append_inv_head "SELECT * FROM ") in H.
  apply (append_inv_head (table self2)) in H.
  apply (append_inv_head " WHERE ") in H.
  exact (append_inv_last ";" query1 query2 H).
Qed.

(** X2. The statement is 22 characters longer than the table name and the
    condition together, and the condition can be read back from it: it is
    the slice of [String.length query] characters that starts 21 characters
    after the table name's length. *)
Theorem finalize_query_default_slice self rule query index state :
  exists out : string,
    result (finalize_query_default self rule query index state) = Returned out
    /\ String.length out
       = 22 + String.length (table self) + String.length query
    /\ substring (21 + String.length (table self)) (String.length query) out
       = query.
Proof.
  eexists. split; [apply finalize_query_default_result |]. split.
  - rewrite !length_append. cbn [String.length]. lia.
  - replace (21 + String.length (table self))
      with (String.length ("SELECT * FROM " ++ table self ++ " WHERE "))
      by (rewrite !length_append; cbn [String.length]; lia).
    replace ("SELECT * FROM " ++ table self ++ " WHERE " ++ query ++ ";")
      with (("SELECT * FROM " ++ table self ++ " WHERE ") ++ query ++ ";")
      by now rewrite !append_assoc.
    rewrite substring_skip. apply substring_whole_prefix.
Qed.

End Finalization.

Lemma finalize_query_default_injective_witness :
  table SurrealQLBackend = table SurrealQLBackend
  /\ result (finalize_query_default SurrealQLBackend 1%nat "a=1" 0 true)
     = result (finalize_query_default SurrealQLBackend 2%nat "a=1" 3 false)
  /\ "a=1" = "a=1".
Proof.
  split; [reflexivity |]. split; [reflexivity |].
  apply (finalize_query_default_injective
           SurrealQLBackend SurrealQLBackend 1%nat 2%nat "a=1" "a=1" 0 3
           true false); reflexivity.
Defined.

(** ** What field-name normalization keeps and what it loses *)

(** X3. A field name that contains a space is changed:
    [escape_and_quote_field] never returns such a name as it was given. *)
Theorem escape_and_quote_field_space_changes
    (self : Backend) (field_name : string) :
  Py.contains_char " " field_name = true ->
  result (escape_and_quote_field self field_name) <> Returned field_name.
Proof.
  intros H E. apply Returned_inj in E.
  exact (replace_space_changes field_name H E).
Qed.

Lemma escape_and_quote_field_space_changes_witness :
  Py.contains_char " " "Process Name" = true
  /\ result (escape_and_quote_field SurrealQLBackend "Process Name")
     <> Returned "Process Name".
Proof.
  split; [reflexivity |].
  apply (escape_and_quote_field_space_changes SurrealQLBackend "Process Name").
  reflexivity.
Defined.

(** X4. Normalization distributes over concatenation: the normalized
    [a ++ b] is the normalized [a] followed by the normalized [b]. *)
Theorem escape_and_quote_field_append (self : Backend) (a b : string) :
  exists x y : string,
    result (escape_and_quote_field self a) = Returned x
    /\ result (escape_and_quote_field self b) = Returned y
    /\ result (escape_and_quote_field self (a ++ b)) = Returned (x ++ y).
Proof.
  exists (Py.replace a " " "_"), (Py.replace b " " "_").
  split; [reflexivity |]. split; [reflexivity |].
  unfold escape_and_quote_field. cbn [result].
  now rewrite replace_space_append.
Qed.

(** X5. Normalization is not injective: every field name that contains a
    space shares its normalized form with a different field name. *)
Theorem escape_and_quote_field_collision
    (self : Backend) (field_name : string) :
  Py.contains_char " " field_name = true ->
  exists other : string,
    other <> field_name
    /\ result (escape_and_quote_field self other)
       = result (escape_and_quote_field self field_name).
Proof.
  intros H. exists (Py.replace field_name " " "_"). split.
  - exact (replace_space_changes field_name H).
  - unfold escape_and_quote_field. cbn [result]. f_equal.
    apply replace_space_fixed, replace_space_no_space.
Qed.

Lemma escape_and_quote_field_collision_witness :
  Py.contains_char " " "User Name" = true
  /\ exists other : string,
       other <> "User Name"
       /\ result (escape_and_quote_field SurrealQLBackend other)
          = result (escape_and_quote_field SurrealQLBackend "User Name").
Proof.
  split; [reflexivity |].
  apply (escape_and_quote_field_collision SurrealQLBackend "User Name").
  reflexivity.
Defined.

(** X6. Normalization accounts for every character: the result has no
    space, as many underscores as the input has underscores and spaces
    together, and of every other character as many as the input. *)
Theorem escape_and_quote_field_count (self : Backend) (field_name : string) :
  exists out : string,
    result (escape_and_quote_field self field_name) = Returned out
    /\ forall c : ascii,
         Py.count_char c out
         = if Ascii.eqb c " " then 0
           else if Ascii.eqb c "_"
                then Py.count_char "_" field_name
                     + Py.count_char " " field_name
                else Py.count_char c field_name.
Proof.
  exists (Py.replace field_name " " "_"). split; [reflexivity |].
  intros c. apply replace_space_count.
Qed.

(** X7. The empty field name, and only it, is normalized to the empty
    string. *)
Theorem escape_and_quote_field_empty (self : Backend) (field_name : string) :
  result (escape_and_quote_field self field_name) = Returned EmptyString
  <-> field_name = EmptyString.
Proof.
  split.
  - intros H. apply Returned_inj in H.
    pose proof (replace_space_length field_name) as L. rewrite H in L.
    now destruct field_name.
  - intros ->. reflexivity.
Qed.

(** * The configuration's tables and templates *)

(** X9. Every format-string template of the class is well formed and names
    only the placeholders it is formatted with: whatever strings are
    supplied, formatting returns the text below and raises neither
    [KeyError] nor [ValueError]. The supplied strings are written as they
    are, braces in them included. *)
Theorem templates_render (e f v r l fi fm fs : string) :
  let b := SurrealQLBackend in
  Py.format (group_expression b) [("expr", e)]
  = Py.Formatted ("(" ++ e ++ ")")
  /\ Py.format (startswith_expression b) [("field", f); ("value", v)]
     = Py.Formatted ("string::starts_with(" ++ f ++ "," ++ v ++ ")")
  /\ Py.format (endswith_expression b) [("field", f); ("value", v)]
     = Py.Formatted ("string::ends_with(" ++ f ++ "," ++ v ++ ")")
  /\ Py.format (contains_expression b) [("field", f); ("value", v)]
     = Py.Formatted ("string::contains(" ++ f ++ "," ++ v ++ ")")
  /\ Py.format (wildcard_match_expression b) [("field", f); ("value", v)]
     = Py.Formatted ("string::matches(" ++ f ++ "," ++ v ++ ")")
  /\ Py.format (wildcard_match_str_expression b) [("field", f); ("value", v)]
     = Py.Formatted (f ++ "=/" ++ v ++ "/")
  /\ Py.format (re_expression b)
       [("field", f); ("regex", r);
        ("flag_i", fi); ("flag_m", fm); ("flag_s", fs)]
     = Py.Formatted (f ++ "=/" ++ r ++ "/")
  /\ Py.format (field_null_expression b) [("field", f)]
     = Py.Formatted (f ++ " IS NULL")
  /\ Py.format (field_exists_expression b) [("field", f)]
     = Py.Formatted (f ++ " IS NOT NONE")
  /\ Py.format (field_not_exists_expression b) [("field", f)]
     = Py.Formatted (f ++ " IS NONE")
  /\ Py.format (field_in_list_expression b)
       [("field", f); ("op", or_in_operator b); ("list", l)]
     = Py.Formatted (f ++ " IN [" ++ l ++ "]")
  /\ Py.format (field_in_list_expression b)
       [("field", f); ("op", and_in_operator b); ("list", l)]
     = Py.Formatted (f ++ " CONTAINSALL [" ++ l ++ "]").
Proof. cbv zeta. repeat split. Qed.

(** The compare template ends in a placeholder, so the scan leaves an
    empty tail after the value. *)
Lemma compare_op_expression_format (f tok v : string) :
  Py.format (compare_op_expression SurrealQLBackend)
    [("field", f); ("operator", tok); ("value", v)]
  = Py.Formatted (f ++ " " ++ tok ++ " " ++ v).
Proof.
  transitivity (Py.Formatted (f ++ " " ++ tok ++ " " ++ v ++ EmptyString));
    [reflexivity | now rewrite append_nil_r].
Qed.

(** X10. Every comparison operator renders: its token is found in
    [compare_operators], and the compare template formatted with a field,
    that token and a value is the field, the token and the value separated
    by single spaces. *)
Theorem compare_render (op : CompareOperators) (f v : string) :
  exists tok : string,
    Py.dict_get CompareOperators_eqb (compare_operators SurrealQLBackend) op
    = Some tok
    /\ Py.format (compare_op_expression SurrealQLBackend)
         [("field", f); ("operator", tok); ("value", v)]
       = Py.Formatted (f ++ " " ++ tok ++ " " ++ v).
Proof.
  destruct op; eexists; (split; [reflexivity |]);
    apply compare_op_expression_format.
Qed.

(** X11. Different comparison operators render differently: for the same
    field and value, the compare template formatted with the tokens of two
    distinct operators gives two distinct texts. *)
Theorem compare_render_distinct
    (op1 op2 : CompareOperators) (tok1 tok2 f v : string) :
  op1 <> op2 ->
  Py.dict_get CompareOperators_eqb (compare_operators SurrealQLBackend) op1
  = Some tok1 ->
  Py.dict_get CompareOperators_eqb (compare_operators SurrealQLBackend) op2
  = Some tok2 ->
  Py.format (compare_op_expression SurrealQLBackend)
    [("field", f); ("operator", tok1); ("value", v)]
  <> Py.format (compare_op_expression SurrealQLBackend)
       [("field", f); ("operator", tok2); ("value", v)].
Proof.
  intros Hne H1 H2 E. rewrite !compare_op_expression_format in E.
  injection E as E. apply (append_inv_head f) in E.
  destruct op1, op2; try (now elim Hne);
    cbn in H1, H2; injection H1 as <-; injection H2 as <-;
    cbn [append] in E; congruence.
Qed.

Lemma compare_render_distinct_witness :
  LT <> LTE
  /\ Py.dict_get CompareOperators_eqb (compare_operators SurrealQLBackend) LT
     = Some "<"
  /\ Py.dict_get CompareOperators_eqb (compare_operators SurrealQLBackend) LTE
     = Some "<="
  /\ Py.format (compare_op_expression SurrealQLBackend)
       [("field", "EventID"); ("operator", "<"); ("value", "10")]
     <> Py.format (compare_op_expression SurrealQLBackend)
          [("field", "EventID"); ("operator", "<="); ("value", "10")].
Proof.
  split; [discriminate |]. split; [reflexivity |]. split; [reflexivity |].
  apply (compare_render_distinct LT LTE "<" "<=" "EventID" "10");
    [discriminate | reflexivity | reflexivity].
Defined.

(** X12. The three field predicates never coincide: for every field, the
    null test, the existence test and the non-existence test are formatted
    to three different texts. *)
Theorem field_predicates_distinct (f : string) :
  exists n e ne : string,
    Py.format (field_null_expression SurrealQLBackend) [("field", f)]
    = Py.Formatted n
    /\ Py.format (field_exists_expression SurrealQLBackend) [("field", f)]
       = Py.Formatted e
    /\ Py.format (field_not_exists_expression SurrealQLBackend) [("field", f)]
       = Py.Formatted ne
    /\ n <> e /\ n <> ne /\ e <> ne.
Proof.
  exists (f ++ " IS NULL"), (f ++ " IS NOT NONE"), (f ++ " IS NONE").
  repeat (split; [reflexivity |]).
  repeat split; intros E; apply append_inv_head in E; discriminate E.
Qed.

(** * The pieces together *)

(** X13. A single comparison end to end: normalizing the field name,
    formatting the compare template with the operator's token, and
    finalizing the formatted text all succeed, and the statement is the
    fixed prefix, the space-free field name, the token and the value
    separated by single spaces, and the terminator. *)
Theorem compare_statement {SigmaRule ConversionState : Type}
    (rule : SigmaRule) (state : ConversionState) (index : Z)
    (field_name v : string) (op : CompareOperators) :
  exists field tok text : string,
    result (escape_and_quote_field SurrealQLBackend field_name)
    = Returned field
    /\ Py.contains_char " " field = false
    /\ Py.dict_get CompareOperators_eqb
         (compare_operators SurrealQLBackend) op = Some tok
    /\ Py.format (compare_op_expression SurrealQLBackend)
         [("field", field); ("operator", tok); ("value", v)]
       = Py.Formatted text
    /\ result (finalize_query_default SurrealQLBackend rule text index state)
       = Returned
           ("SELECT * FROM <TABLE_NAME> WHERE "
            ++ field ++ " " ++ tok ++ " " ++ v ++ ";").
Proof.
  assert (exists tok : string,
            Py.dict_get CompareOperators_eqb
              (compare_operators SurrealQLBackend) op = Some tok)
    as [tok Htok] by (destruct op; eexists; reflexivity).
  exists (Py.replace field_name " " "_"), tok,
    (Py.replace field_name " " "_" ++ " " ++ tok ++ " " ++ v).
  split; [reflexivity |]. split; [apply replace_space_no_space |].
  split; [exact Htok |]. split; [apply compare_op_expression_format |].
  rewrite finalize_query_default_result. f_equal. cbn [table SurrealQLBackend].
  now rewrite !append_assoc.
Qed.

(** * The methods at run time: what they return and what they write *)

Section RuntimeMethods.

Implicit Types (st : Runtime.Store).
Implicit Types (self rule index state : Runtime.value).

(** The operations of the run-time model do fail and do write: a method call
    on [None] raises, an attribute assignment changes the store. *)
Example escape_and_quote_field_on_none :
  fst (Runtime.escape_and_quote_field (Runtime.VRef 0) Runtime.VNone Runtime.sample_store)
  = Runtime.Threw AttributeError.
Proof. reflexivity. Qed.

Example setattr_changes_store :
  fst (Runtime.setattr (Runtime.VRef 1) "title" (Runtime.VStr "Renamed") Runtime.sample_store) = Runtime.Done tt
  /\ snd (Runtime.setattr (Runtime.VRef 1) "title" (Runtime.VStr "Renamed") Runtime.sample_store)
     <> Runtime.sample_store.
Proof. split; [reflexivity | discriminate]. Qed.

Example class_assign_changes_store :
  snd (Runtime.class_assign (fun _ => SurrealQLBackend) Runtime.sample_store) = Runtime.sample_store
  /\ forall b : Backend,
       table b <> table SurrealQLBackend ->
       snd (Runtime.class_assign (fun _ => b) Runtime.sample_store) <> Runtime.sample_store.
Proof.
  split; [reflexivity |]. intros b Hb E. apply Hb.
  exact (f_equal (fun st => table (Runtime.backend_class st)) E).
Qed.

Example finalize_query_default_at_run_time :
  Runtime.finalize_query_default (Runtime.VRef 0) (Runtime.VRef 1) (Runtime.VStr "EventID=1")
    (Runtime.VInt 0) (Runtime.VRef 2) Runtime.sample_store
  = (Runtime.Done (Runtime.VStr "SELECT * FROM <TABLE_NAME> WHERE EventID=1;"), Runtime.sample_store).
Proof. reflexivity. Qed.

(** [self.table] on an instance without an attribute of its own is found in
    the class. *)
Lemma getattr_table st self :
  Runtime.backend_instance st self = true ->
  Runtime.getattr self "table" st = (Runtime.Done (Runtime.VStr (table (Runtime.backend_class st))), st).
Proof.
  unfold Runtime.backend_instance, Runtime.getattr.
  destruct self as [| | | | l]; try discriminate.
  destruct (Runtime.deref l st) as [[[|] own] |]; try discriminate.
  cbn [Runtime.fields Runtime.class_of].
  destruct (Py.dict_get String.eqb own "table"); [discriminate |].
  reflexivity.
Qed.

Lemma runtime_finalize_query_default_run
    st self rule index state (query : string) :
  Runtime.backend_instance st self = true ->
  Runtime.finalize_query_default self rule (Runtime.VStr query) index state st
  = (Runtime.Done (Runtime.VStr ("SELECT * FROM " ++ table (Runtime.backend_class st)
                 ++ " WHERE " ++ query ++ ";")), st).
Proof.
  intros H. unfold Runtime.finalize_query_default, Runtime.bind.
  rewrite (getattr_table st self H). reflexivity.
Qed.

Lemma runtime_escape_and_quote_field_run st self (field_name : string) :
  Runtime.escape_and_quote_field self (Runtime.VStr field_name) st
  = (Runtime.Done (Runtime.VStr (Py.replace field_name " " "_")), st).
Proof. reflexivity. Qed.

(** The two levels agree: on [str] arguments the run-time methods return
    what the methods over the class configuration return. *)
Lemma runtime_agrees {SigmaRule ConversionState : Type}
    st self rule index state (query field_name : string)
    (r : SigmaRule) (i : Z) (c : ConversionState) :
  Runtime.backend_instance st self = true ->
  exists out1 out2 : string,
    result (finalize_query_default (Runtime.backend_class st) r query i c)
    = Returned out1
    /\ fst (Runtime.finalize_query_default self rule (Runtime.VStr query) index state
              st)
       = Runtime.Done (Runtime.VStr out1)
    /\ result (escape_and_quote_field (Runtime.backend_class st) field_name)
       = Returned out2
    /\ fst (Runtime.escape_and_quote_field self (Runtime.VStr field_name) st)
       = Runtime.Done (Runtime.VStr out2).
Proof.
  intros H. eexists. eexists.
  split; [apply finalize_query_default_result |].
  split; [now rewrite (runtime_finalize_query_default_run _ _ _ _ _ _ H) |].
  split; reflexivity.
Qed.

(** C4. Both methods are total: called on a backend instance with [str]
    arguments and any rule, index and state, each run ends by returning a
    string; it neither raises nor leaves the modelled part of Python. *)
Theorem runtime_methods_return
    st self rule index state (query field_name : string) :
  Runtime.backend_instance st self = true ->
  (exists out : string,
     fst (Runtime.finalize_query_default self rule (Runtime.VStr query) index state st)
     = Runtime.Done (Runtime.VStr out))
  /\ (exists out : string,
        fst (Runtime.escape_and_quote_field self (Runtime.VStr field_name) st)
        = Runtime.Done (Runtime.VStr out)).
Proof.
  intros H. split; eexists.
  - now rewrite (runtime_finalize_query_default_run _ _ _ _ _ _ H).
  - now rewrite runtime_escape_and_quote_field_run.
Qed.

(** C6. Neither method writes: after a call on a backend instance with
    [str] arguments, the store (the attributes of the class, the rule, the
    conversion state and every other object) is the store before the
    call. *)
Theorem runtime_methods_write_nothing
    st self rule index state (query field_name : string) :
  Runtime.backend_instance st self = true ->
  snd (Runtime.finalize_query_default self rule (Runtime.VStr query) index state st)
  = st
  /\ snd (Runtime.escape_and_quote_field self (Runtime.VStr field_name) st) = st.
Proof.
  intros H. split.
  - now rewrite (runtime_finalize_query_default_run _ _ _ _ _ _ H).
  - now rewrite runtime_escape_and_quote_field_run.
Qed.

(** Whatever the arguments are, a run that stays inside the model, also one
    that raises, leaves the store as it was. *)
Lemma runtime_methods_keep_store
    st self rule query index state (field_name : Runtime.value) :
  let r1 := Runtime.finalize_query_default self rule query index state st in
  let r2 := Runtime.escape_and_quote_field self field_name st in
  (fst r1 = Runtime.Beyond \/ snd r1 = st)
  /\ (fst r2 = Runtime.Beyond \/ snd r2 = st).
Proof.
  cbv zeta. split; right.
  - unfold Runtime.finalize_query_default, Runtime.bind, Runtime.getattr.
    destruct self as [| | | | l]; try reflexivity.
    destruct (Runtime.deref l st) as [[cls own] |]; [| reflexivity].
    cbn [Runtime.fields Runtime.class_of].
    destruct (Py.dict_get String.eqb own "table") as [v |].
    + destruct v as [| [|] | z | s | l']; try reflexivity;
        destruct query as [| [|] | z' | s' | l'']; reflexivity.
    + destruct cls; [| reflexivity].
      destruct query as [| [|] | z' | s' | l'']; reflexivity.
  - destruct field_name; reflexivity.
Qed.

End RuntimeMethods.

Lemma runtime_methods_return_witness :
  Runtime.backend_instance Runtime.sample_store (Runtime.VRef 0) = true
  /\ (exists out : string,
        fst (Runtime.finalize_query_default (Runtime.VRef 0) (Runtime.VRef 1)
               (Runtime.VStr "a=1 AND b=2") (Runtime.VInt 0) (Runtime.VRef 2)
               Runtime.sample_store)
        = Runtime.Done (Runtime.VStr out))
  /\ (exists out : string,
        fst (Runtime.escape_and_quote_field (Runtime.VRef 0)
               (Runtime.VStr "Process Name") Runtime.sample_store)
        = Runtime.Done (Runtime.VStr out)).
Proof.
  split; [reflexivity |].
  apply (runtime_methods_return Runtime.sample_store (Runtime.VRef 0)
           (Runtime.VRef 1) (Runtime.VInt 0) (Runtime.VRef 2)
           "a=1 AND b=2" "Process Name").
  reflexivity.
Defined.

Lemma runtime_methods_write_nothing_witness :
  Runtime.backend_instance Runtime.sample_store (Runtime.VRef 0) = true
  /\ snd (Runtime.finalize_query_default (Runtime.VRef 0) (Runtime.VRef 1)
            (Runtime.VStr "a=1 AND b=2") (Runtime.VInt 0) (Runtime.VRef 2)
            Runtime.sample_store)
     = Runtime.sample_store
  /\ snd (Runtime.escape_and_quote_field (Runtime.VRef 0)
            (Runtime.VStr "Process Name") Runtime.sample_store)
     = Runtime.sample_store.
Proof.
  split; [reflexivity |].
  apply (runtime_methods_write_nothing Runtime.sample_store (Runtime.VRef 0)
           (Runtime.VRef 1) (Runtime.VInt 0) (Runtime.VRef 2)
           "a=1 AND b=2" "Process Name").
  reflexivity.
Defined.
